(** * Image editor: geometry, canvas transforms, prompt compiler, history

    A shallow embedding of the logic of [src/App.tsx],
    [src/utils/fileUtils.ts] and the remote edit service
    ([editImageWithPrompt]).

    Conventions of the embedding.
    - A JavaScript [number] that holds a pixel count of a decoded image or
      of a canvas is an integer and is modelled by [Z].  Every other
      [number] (display-space coordinates, aspect ratios, scale factors) is
      modelled by an exact rational [Q]: the arithmetic of the source is
      read as exact arithmetic, without the rounding error of IEEE doubles
      and without NaN or infinities.  The concrete inputs used below are
      decided the same way in double arithmetic: every value that is
      rounded or compared there is either represented exactly or far from
      the boundary of the rounding or of the comparison.
    - [Math.round x] is the integer [floor (x + 1/2)].
    - A JavaScript string is a [string] of bytes (UTF-8).
    - Promises are modelled by their settlement: resolved with a value,
      rejected with a thrown value, or never settled.
    - The browser (image decoding, canvas encoding, the container's layout
      box, the remote service) is an explicit environment record. *)

From Stdlib Require Import ZArith QArith Qround Qminmax Lia Lqa Bool List.
From Stdlib Require Import Ascii String DecimalString.
Import ListNotations.

(** ** JavaScript primitives *)

Module JS.

Open Scope Q_scope.

(** [Math.round]: nearest integer, halves towards plus infinity. *)
Definition Math_round (x : Q) : Z := Qfloor (x + (1 # 2)).

Definition Math_max (a b : Q) : Q := Qmax a b.
Definition Math_min (a b : Q) : Q := Qmin a b.

(** [a > b] and [a < b] on numbers. *)
Definition gtb (a b : Q) : bool := negb (Qle_bool a b).
Definition ltb (a b : Q) : bool := negb (Qle_bool b a).

(** A number is truthy when it is not zero (there is no NaN here). *)
Definition truthy_num (a : Q) : bool := negb (Qeq_bool a 0).

(** Values that can be thrown or used to reject a promise: an instance of
    [Error] carrying its [message], or any other value, from which the
    [catch] blocks of the source read no message. *)
Inductive thrown : Type :=
| ErrorObj (message : string)
| OtherValue (repr : string).

(** Settlement of a promise. *)
Inductive promise (A : Type) : Type :=
| Resolved (a : A)
| Rejected (e : thrown)
| Pending.

Arguments Resolved {A} a.
Arguments Rejected {A} e.
Arguments Pending {A}.

(** [await]: sequencing of asynchronous steps inside an [async] function. *)
Definition await {A B : Type} (p : promise A) (k : A -> promise B)
  : promise B :=
  match p with
  | Resolved a => k a
  | Rejected e => Rejected e
  | Pending => Pending
  end.

End JS.

Notation "'let!' x ':=' p 'in' k" :=
  (JS.await p (fun x => k))
  (at level 10, x pattern, p at level 100, k at level 200).

(** ** The browser environment *)

(** Pixel dimensions of a decoded image or of a canvas. *)
Record Dimensions : Type := mkDimensions {
  width : Z;
  height : Z
}.

(** A rectangle [{x, y, width, height}] in display space or, before
    rounding, in native space. *)
Module Rect.

Record t : Type := mk {
  x : Q;
  y : Q;
  width : Q;
  height : Q
}.

End Rect.

(** What the source obtains from the platform.
    - [loadImage src]: setting [image.src]; [Some d] when [onload] fires
      with an image of dimensions [d], [None] when [onerror] fires.
    - [getContext2d]: whether [canvas.getContext('2d')] is non-null.
    - [cropPng url sx sy w h]: the base64 payload of [canvas.toDataURL]
      after [drawImage(image, sx, sy, w, h, 0, 0, w, h)] on a [w] by [h]
      canvas.
    - [padPng base64 cw ch dx dy]: the same after
      [drawImage(image, dx, dy, image.width, image.height)] on a [cw] by
      [ch] canvas.
    - [containerRect]: width and height of
      [imageContainerRef.current.getBoundingClientRect()], [None] when the
      ref is null.
    - [fileToBase64], [createObjectURL]: the [FileReader] of
      [fileToBase64] and [URL.createObjectURL], on an uploaded file
      identified by its name. *)
Record Browser : Type := mkBrowser {
  loadImage : string -> option Dimensions;
  getContext2d : bool;
  cropPng : string -> Z -> Z -> Z -> Z -> string;
  padPng : string -> Z -> Z -> Z -> Z -> string;
  containerRect : option (Q * Q);
  fileToBase64 : string -> JS.promise string;
  createObjectURL : string -> string
}.

(** ** [src/utils/fileUtils.ts] *)

Module FileUtils.

Import JS.
Open Scope Q_scope.
Open Scope string_scope.

(** What [cropImage] and [padImage] resolve with. *)
Record Encoded : Type := mkEncoded {
  base64 : string;
  dimensions : Dimensions
}.

(** The rounding of the requested rectangle in [cropImage]:
    each of [x], [y], [width], [height] is rounded on its own. *)
Definition roundCrop (pixelCrop : Rect.t) : Z * Z * Z * Z :=
  (Math_round (Rect.x pixelCrop), Math_round (Rect.y pixelCrop),
   Math_round (Rect.width pixelCrop), Math_round (Rect.height pixelCrop)).

Definition cropImage (env : Browser) (imageUrl : string) (pixelCrop : Rect.t)
  : promise Encoded :=
  match loadImage env imageUrl with
  | None =>
      Rejected (ErrorObj
        "Falha ao carregar a imagem para o recorte: [object Event]")
  | Some _ =>
      if negb (getContext2d env) then
        Rejected (ErrorObj "Não foi possível obter o contexto do canvas.")
      else
        let '(cx, cy, cw, ch) := roundCrop pixelCrop in
        Resolved {| base64 := cropPng env imageUrl cx cy cw ch;
                    dimensions := mkDimensions cw ch |}
  end.

(** The canvas size and the drawing offset computed by [padImage], as
    [(canvasWidth, canvasHeight, drawX, drawY)].  The offsets are computed
    from the canvas dimensions before these are rounded. *)
Definition padLayout (imageWidth imageHeight : Z) (targetAspectRatio : Q)
  : Z * Z * Z * Z :=
  let w := inject_Z imageWidth in
  let h := inject_Z imageHeight in
  let currentAspectRatio := w / h in
  let '(canvasWidth, canvasHeight, drawX, drawY) :=
    if gtb currentAspectRatio targetAspectRatio then
      let canvasWidth := w in
      let canvasHeight := w / targetAspectRatio in
      (canvasWidth, canvasHeight, 0, (canvasHeight - h) / 2)
    else
      let canvasHeight := h in
      let canvasWidth := h * targetAspectRatio in
      (canvasWidth, canvasHeight, (canvasWidth - w) / 2, 0)
  in
  (Math_round canvasWidth, Math_round canvasHeight,
   Math_round drawX, Math_round drawY).


Definition pngDataUrl (b64 : string) : string :=
  "data:image/png;base64," ++ b64.

Definition padImage (env : Browser) (base64Image : string)
    (targetAspectRatio : Q) : promise Encoded :=
  match loadImage env (pngDataUrl base64Image) with
  | None =>
      Rejected (ErrorObj
        "Falha ao carregar a imagem para o preenchimento: [object Event]")
  | Some d =>
      let '(cw, ch, dx, dy) :=
        padLayout (width d) (height d) targetAspectRatio in
      if negb (getContext2d env) then
        Rejected (ErrorObj "Não foi possível obter o contexto do canvas.")
      else
        Resolved {| base64 := padPng env base64Image cw ch dx dy;
                    dimensions := mkDimensions cw ch |}
  end.

End FileUtils.

(** ** Strings *)

Module JSString.

Open Scope string_scope.

(** [s.includes(pat)]: [pat] occurs in [s] at some position. *)
Fixpoint includes (s pat : string) : bool :=
  if String.prefix pat s then true
  else match s with
       | EmptyString => false
       | String _ s' => includes s' pat
       end.

(** Lower case of one byte of the Basic Latin block. *)
Definition lowerByte (c : ascii) : ascii :=
  let n := nat_of_ascii c in
  if ((65 <=? n) && (n <=? 90))%nat then ascii_of_nat (n + 32) else c.

(** Lower case of the second byte of a two-byte UTF-8 sequence whose
    first byte is 0xC3, that is of U+00C0 to U+00FF: the capital letters
    U+00C0 to U+00DE, the multiplication sign U+00D7 apart, are moved by
    0x20. *)
Definition lowerLatin1 (c : ascii) : ascii :=
  let n := nat_of_ascii c in
  if ((128 <=? n) && (n <=? 158) && negb (n =? 151))%nat
  then ascii_of_nat (n + 32) else c.

(** [s.toLowerCase()] on the UTF-8 bytes of [s], for the Basic Latin and
    Latin-1 Supplement blocks (the alphabet of the interface and of its
    keyword list); other bytes are kept. *)
Fixpoint toLowerCase (s : string) : string :=
  match s with
  | EmptyString => EmptyString
  | String c s' =>
      if (nat_of_ascii c =? 195)%nat then
        match s' with
        | String d s'' => String c (String (lowerLatin1 d) (toLowerCase s''))
        | EmptyString => String c EmptyString
        end
      else String (lowerByte c) (toLowerCase s')
  end.

(** [xs.join(sep)]. *)
Definition join (sep : string) (xs : list string) : string :=
  String.concat sep xs.

(** A string is truthy when it is not empty. *)
Definition truthy (s : string) : bool :=
  match s with EmptyString => false | _ => true end.

(** [xs.filter(Boolean)] on strings. *)
Definition filterBoolean (xs : list string) : list string :=
  List.filter truthy xs.

(** [a || b] on strings. *)
Definition or_else (a b : string) : string :=
  if truthy a then a else b.

(** [xs.push(x)]. *)
Definition push (xs : list string) (x : string) : list string :=
  (xs ++ [x])%list.

(** Template interpolation of an integer number: its decimal numeral. *)
Definition numberToString (z : Z) : string :=
  NilZero.string_of_int (Z.to_int z).

(** The double quote character. *)
Definition dquote : string := String "034"%char EmptyString.

(** [s.split(sep)] for a one-character separator. *)
Fixpoint split (sep : ascii) (s : string) : list string :=
  match s with
  | EmptyString => [EmptyString]
  | String c s' =>
      if Ascii.eqb c sep then EmptyString :: split sep s'
      else match split sep s' with
           | [] => [String c EmptyString]
           | w :: ws => String c w :: ws
           end
  end.

Definition isDigit (c : ascii) : bool :=
  let n := nat_of_ascii c in ((48 <=? n) && (n <=? 57))%nat.

Definition isSpace (c : ascii) : bool :=
  let n := nat_of_ascii c in
  ((n =? 32) || ((9 <=? n) && (n <=? 13)))%nat.

(** The longest prefix of decimal digits of [s]: its value continuing
    [acc], the number of digits read, and the rest of [s]. *)
Fixpoint readDigits (s : string) (acc : Z) (count : nat)
  : Z * nat * string :=
  match s with
  | String c s' =>
      if isDigit c
      then readDigits s' (10 * acc + (Z.of_nat (nat_of_ascii c) - 48)) (S count)
      else (acc, count, s)
  | EmptyString => (acc, count, s)
  end.

Fixpoint trimStart (s : string) : string :=
  match s with
  | String c s' => if isSpace c then trimStart s' else s
  | EmptyString => s
  end.

(** [parseFloat s] for decimal numerals without exponent: leading white
    space, an optional sign, digits, an optional fraction; the rest of the
    string is ignored.  [None] is NaN. *)
Definition parseFloat (s : string) : option Q :=
  let s := trimStart s in
  let '(sign, s) :=
    match s with
    | String "-"%char s' => ((-1)%Z, s')
    | String "+"%char s' => (1%Z, s')
    | _ => (1%Z, s)
    end in
  let '(ip, ni, rest) := readDigits s 0 0 in
  let '(fp, nf) :=
    match rest with
    | String "."%char rest' =>
        let '(fp, nf, _) := readDigits rest' 0 0 in (fp, nf)
    | _ => (0%Z, 0%nat)
    end in
  if ((ni + nf) =? 0)%nat then None
  else Some (inject_Z sign *
             (inject_Z ip + inject_Z fp / inject_Z (10 ^ Z.of_nat nf)))%Q.

End JSString.


(** ** The remote edit service: [editImageWithPrompt] *)

Module GeminiService.

Import JS JSString.
Open Scope string_scope.

(** A part of a request or of a response candidate. *)
Inductive Part : Type :=
| InlineData (data : string) (mimeType : string)
| Text (text : string).

(** The service as the function calls it: whether [process.env.API_KEY]
    is set, and the settlement of [ai.models.generateContent] on the
    request parts, a response being the list of candidates, each the list
    of its content parts ([[]] when [content] or [parts] is missing). *)
Record Service : Type := mkService {
  API_KEY : bool;
  generateContent : list Part -> promise (list (list Part))
}.

Definition qualityKeywords : list string :=
  [ "melhore a qualidade"; "aumente a qualidade"; "alta resolução";
    "mais nítido"; "mais detalhes"; "qualidade 4k"; "ultra realista";
    "fotorrealista"; "hd"; "uhd"; "deixe mais real"; "melhorar a imagem" ].

Definition qualityInstructionHigh : string :=
  "Gere a imagem com a mais alta fidelidade possível, preservando detalhes nítidos e evitando artefatos visuais ou de compressão.".

Definition qualityInstruction4k : string :=
  "Gere a imagem com detalhes fotorrealistas e a mais alta resolução possível. Foque em texturas complexas, iluminação realista e renderização nítida, como se fosse para uma tela 4K.".

Definition qualityInstructionFromPromptText : string :=
  "O usuário solicitou um aumento explícito na qualidade. Priorize a geração da imagem com o máximo de detalhes, nitidez, clareza e fotorrealismo possível.".

Definition dimensionRuleOutpainting (dimensions : Dimensions) : string :=
  "**REGRA INQUEBRÁVEL:** A imagem final DEVE ter EXATAMENTE as mesmas dimensões da PRIMEIRA imagem fornecida ("
  ++ numberToString (width dimensions) ++ "x"
  ++ numberToString (height dimensions)
  ++ " pixels). A primeira imagem contém áreas transparentes. Sua tarefa é preencher essas áreas transparentes de forma criativa e realista, criando uma continuação natural da imagem existente. O resultado final NÃO PODE ter nenhuma área transparente.".

Definition dimensionRuleStandard (dimensions : Dimensions) : string :=
  "**REGRA INQUEBRÁVEL:** A imagem final DEVE ter EXATAMENTE as mesmas dimensões e proporção da PRIMEIRA imagem fornecida ("
  ++ numberToString (width dimensions) ++ "x"
  ++ numberToString (height dimensions)
  ++ " pixels). É PROIBIDO cortar, redimensionar ou alterar a proporção original.".

Definition editTaskOutpainting (prompt : string) : string :=
  "**TAREFA DE EDIÇÃO:** Dentro da área já visível (não-transparente) da primeira imagem, aplique a seguinte edição: "
  ++ dquote ++ prompt ++ dquote
  ++ ". Se o comando for genérico (ex: " ++ dquote ++ "melhore a imagem"
  ++ dquote ++ "), aplique-o em toda a cena final.".

Definition editTaskStandard (prompt : string) : string :=
  "**TAREFA DE EDIÇÃO:** Edite a PRIMEIRA imagem com base no seguinte comando: "
  ++ dquote ++ prompt ++ dquote ++ ".".

Definition referenceRule : string :=
  "**AVISO:** A SEGUNDA imagem é apenas para referência de estilo ou objeto. IGNORE TOTALMENTE as suas dimensões e proporção. A única regra de dimensões válida é a 'REGRA INQUEBRÁVEL' acima.".

Definition qualityLine (qualityText : string) : string :=
  "**QUALIDADE:** " ++ qualityText.

(** Truthiness of a [string | null]. *)
Definition truthy_opt (o : option string) : bool :=
  match o with Some s => truthy s | None => false end.

(** Step 3 of the function: the quality instruction selected by the
    quality level, and the one triggered by a keyword of the command. *)
Definition qualityInstruction (quality : string) : string :=
  if String.eqb quality "high" then qualityInstructionHigh
  else if String.eqb quality "4k" then qualityInstruction4k
  else "".

Definition qualityInstructionFromPrompt (prompt : string) : string :=
  let lowerCasePrompt := toLowerCase prompt in
  if List.existsb (fun keyword => includes lowerCasePrompt keyword)
       qualityKeywords
  then qualityInstructionFromPromptText
  else "".

Definition isOutpaintingTask (aspectRatio : string) : bool :=
  negb (String.eqb aspectRatio "original").

(** Step 4: the lines pushed on [promptLines], in the order of the
    pushes. *)
Definition promptLines (prompt : string) (attachedImageBase64 : option string)
    (dimensions : Dimensions) (aspectRatio quality : string) : list string :=
  let promptLines := [] in
  let promptLines :=
    if isOutpaintingTask aspectRatio
    then push promptLines (dimensionRuleOutpainting dimensions)
    else push promptLines (dimensionRuleStandard dimensions) in
  let editTask :=
    if isOutpaintingTask aspectRatio
    then editTaskOutpainting prompt
    else editTaskStandard prompt in
  let promptLines := push promptLines editTask in
  let promptLines :=
    if truthy_opt attachedImageBase64
    then push promptLines referenceRule
    else promptLines in
  let qualityText :=
    join " " (filterBoolean [qualityInstruction quality;
                             qualityInstructionFromPrompt prompt]) in
  if truthy qualityText
  then push promptLines (qualityLine qualityText)
  else promptLines.

Definition newline2 : string :=
  String "010"%char (String "010"%char EmptyString).

Definition enhancedPrompt (prompt : string)
    (attachedImageBase64 : option string) (dimensions : Dimensions)
    (aspectRatio quality : string) : string :=
  join newline2
    (promptLines prompt attachedImageBase64 dimensions aspectRatio quality).

(** Steps 1, 2 and 5: the request parts. *)
Definition requestParts (base64ImageData mimeType prompt : string)
    (attachedImageBase64 attachedImageMimeType : option string)
    (dimensions : Dimensions) (aspectRatio quality : string) : list Part :=
  ([InlineData base64ImageData mimeType]
   ++ match attachedImageBase64, attachedImageMimeType with
      | Some b, Some m =>
          if truthy b && truthy m then [InlineData b m] else []
      | _, _ => []
      end
   ++ [Text (enhancedPrompt prompt attachedImageBase64 dimensions
               aspectRatio quality)])%list.

(** The loop over the parts of the first candidate: the data of the first
    part that has [inlineData]. *)
Fixpoint firstInlineData (parts : list Part) : option string :=
  match parts with
  | [] => None
  | InlineData data _ :: _ => Some data
  | Text _ :: rest => firstInlineData rest
  end.

Definition noImageError : thrown :=
  ErrorObj "Nenhuma imagem foi gerada na resposta.".

Definition safetyError : thrown :=
  ErrorObj "A solicitação foi bloqueada por configurações de segurança. Por favor, modifique seu comando ou imagem.".

(** The [catch] block of step 6. *)
Definition catchBlock (error : thrown) : promise string :=
  match error with
  | ErrorObj message =>
      if includes message "SAFETY" then Rejected safetyError
      else Rejected error
  | OtherValue _ => Rejected error
  end.

(** The [try] block of step 6: its value, or what it throws. *)
Definition tryBlock (svc : Service) (parts : list Part) : promise string :=
  let! response := generateContent svc parts in
  match firstInlineData (List.hd [] response) with
  | Some data => Resolved data
  | None => Rejected noImageError
  end.

Definition editImageWithPrompt (svc : Service)
    (base64ImageData mimeType prompt : string)
    (attachedImageBase64 attachedImageMimeType : option string)
    (dimensions : Dimensions) (aspectRatio quality : string)
    (attachedImageDimensions : option Dimensions) : promise string :=
  if negb (API_KEY svc) then
    Rejected (ErrorObj "A variável de ambiente API_KEY não está definida.")
  else
    let parts :=
      requestParts base64ImageData mimeType prompt attachedImageBase64
        attachedImageMimeType dimensions aspectRatio quality in
    match tryBlock svc parts with
    | Resolved data => Resolved data
    | Rejected error => catchBlock error
    | Pending => Pending
    end.

End GeminiService.

(** ** [src/App.tsx] *)

Module App.

Import JS JSString.
Open Scope Q_scope.
Open Scope string_scope.

Record HistoryItem : Type := mkHistoryItem {
  url : string;
  base64 : string;
  mimeType : string;
  dimensions : Dimensions
}.

(** The content of [cropInteractionRef]. *)
Record Interaction : Type := mkInteraction {
  isDragging : bool;
  isResizing : bool;
  startX : Q;
  startY : Q;
  startCrop : option Rect.t
}.

(** The state of the component: one field per [useState], and the crop
    interaction ref. *)
Record State : Type := mkState {
  history : list HistoryItem;
  activeHistoryIndex : option nat;
  prompt : string;
  isLoading : bool;
  error : option string;
  aspectRatio : string;
  quality : string;
  attachedImage : option string;
  attachedImageBase64 : option string;
  attachedImageMimeType : option string;
  attachedImageName : option string;
  attachedImageDimensions : option Dimensions;
  crop : option Rect.t;
  isCropping : bool;
  cropInteraction : Interaction
}.

(** An uploaded [File]. *)
Record File : Type := mkFile {
  name : string;
  size : Z;
  type : string
}.

(** *** State setters *)

Definition setHistory (v : list HistoryItem) (s : State) : State :=
  mkState v (activeHistoryIndex s) (prompt s) (isLoading s) (error s)
    (aspectRatio s) (quality s) (attachedImage s) (attachedImageBase64 s)
    (attachedImageMimeType s) (attachedImageName s)
    (attachedImageDimensions s) (crop s) (isCropping s) (cropInteraction s).

Definition setActiveHistoryIndex (v : option nat) (s : State) : State :=
  mkState (history s) v (prompt s) (isLoading s) (error s)
    (aspectRatio s) (quality s) (attachedImage s) (attachedImageBase64 s)
    (attachedImageMimeType s) (attachedImageName s)
    (attachedImageDimensions s) (crop s) (isCropping s) (cropInteraction s).

Definition setPrompt (v : string) (s : State) : State :=
  mkState (history s) (activeHistoryIndex s) v (isLoading s) (error s)
    (aspectRatio s) (quality s) (attachedImage s) (attachedImageBase64 s)
    (attachedImageMimeType s) (attachedImageName s)
    (attachedImageDimensions s) (crop s) (isCropping s) (cropInteraction s).

Definition setIsLoading (v : bool) (s : State) : State :=
  mkState (history s) (activeHistoryIndex s) (prompt s) v (error s)
    (aspectRatio s) (quality s) (attachedImage s) (attachedImageBase64 s)
    (attachedImageMimeType s) (attachedImageName s)
    (attachedImageDimensions s) (crop s) (isCropping s) (cropInteraction s).

Definition setError (v : option string) (s : State) : State :=
  mkState (history s) (activeHistoryIndex s) (prompt s) (isLoading s) v
    (aspectRatio s) (quality s) (attachedImage s) (attachedImageBase64 s)
    (attachedImageMimeType s) (attachedImageName s)
    (attachedImageDimensions s) (crop s) (isCropping s) (cropInteraction s).

Definition setAspectRatio (v : string) (s : State) : State :=
  mkState (history s) (activeHistoryIndex s) (prompt s) (isLoading s)
    (error s) v (quality s) (attachedImage s) (attachedImageBase64 s)
    (attachedImageMimeType s) (attachedImageName s)
    (attachedImageDimensions s) (crop s) (isCropping s) (cropInteraction s).

Definition setQuality (v : string) (s : State) : State :=
  mkState (history s) (activeHistoryIndex s) (prompt s) (isLoading s)
    (error s) (aspectRatio s) v (attachedImage s) (attachedImageBase64 s)
    (attachedImageMimeType s) (attachedImageName s)
    (attachedImageDimensions s) (crop s) (isCropping s) (cropInteraction s).

Definition setAttachedImage (v : option string) (s : State) : State :=
  mkState (history s) (activeHistoryIndex s) (prompt s) (isLoading s)
    (error s) (aspectRatio s) (quality s) v (attachedImageBase64 s)
    (attachedImageMimeType s) (attachedImageName s)
    (attachedImageDimensions s) (crop s) (isCropping s) (cropInteraction s).

Definition setAttachedImageBase64 (v : option string) (s : State) : State :=
  mkState (history s) (activeHistoryIndex s) (prompt s) (isLoading s)
    (error s) (aspectRatio s) (quality s) (attachedImage s) v
    (attachedImageMimeType s) (attachedImageName s)
    (attachedImageDimensions s) (crop s) (isCropping s) (cropInteraction s).

Definition setAttachedImageMimeType (v : option string) (s : State) : State :=
  mkState (history s) (activeHistoryIndex s) (prompt s) (isLoading s)
    (error s) (aspectRatio s) (quality s) (attachedImage s)
    (attachedImageBase64 s) v (attachedImageName s)
    (attachedImageDimensions s) (crop s) (isCropping s) (cropInteraction s).

Definition setAttachedImageName (v : option string) (s : State) : State :=
  mkState (history s) (activeHistoryIndex s) (prompt s) (isLoading s)
    (error s) (aspectRatio s) (quality s) (attachedImage s)
    (attachedImageBase64 s) (attachedImageMimeType s) v
    (attachedImageDimensions s) (crop s) (isCropping s) (cropInteraction s).

Definition setAttachedImageDimensions (v : option Dimensions) (s : State)
  : State :=
  mkState (history s) (activeHistoryIndex s) (prompt s) (isLoading s)
    (error s) (aspectRatio s) (quality s) (attachedImage s)
    (attachedImageBase64 s) (attachedImageMimeType s) (attachedImageName s)
    v (crop s) (isCropping s) (cropInteraction s).

Definition setCrop (v : option Rect.t) (s : State) : State :=
  mkState (history s) (activeHistoryIndex s) (prompt s) (isLoading s)
    (error s) (aspectRatio s) (quality s) (attachedImage s)
    (attachedImageBase64 s) (attachedImageMimeType s) (attachedImageName s)
    (attachedImageDimensions s) v (isCropping s) (cropInteraction s).

Definition setIsCropping (v : bool) (s : State) : State :=
  mkState (history s) (activeHistoryIndex s) (prompt s) (isLoading s)
    (error s) (aspectRatio s) (quality s) (attachedImage s)
    (attachedImageBase64 s) (attachedImageMimeType s) (attachedImageName s)
    (attachedImageDimensions s) (crop s) v (cropInteraction s).

Definition setCropInteraction (v : Interaction) (s : State) : State :=
  mkState (history s) (activeHistoryIndex s) (prompt s) (isLoading s)
    (error s) (aspectRatio s) (quality s) (attachedImage s)
    (attachedImageBase64 s) (attachedImageMimeType s) (attachedImageName s)
    (attachedImageDimensions s) (crop s) (isCropping s) v.

(** The state of the first render, [storedPrompt] and [storedAspectRatio]
    being the two values read from [localStorage]. *)
Definition initialState (storedPrompt storedAspectRatio : option string)
  : State :=
  mkState [] None
    (match storedPrompt with Some p => or_else p "" | None => "" end)
    false None
    (match storedAspectRatio with
     | Some a => or_else a "original"
     | None => "original"
     end)
    "standard" None None None None None None false
    (mkInteraction false false 0 0 None).

(** *** Aspect ratios *)

Definition parseAspectRatio (ratioStr : string) : option Q :=
  if String.eqb ratioStr "original" then None
  else
    match split ":" ratioStr with
    | [p0; p1] =>
        match parseFloat p0, parseFloat p1 with
        | Some width, Some height =>
            if Qeq_bool height 0 then None else Some (width / height)
        | _, _ => None
        end
    | _ => None
    end.

Definition ratioOfDimensions (d : Dimensions) : Q :=
  inject_Z (width d) / inject_Z (height d).

(** The target ratio as the crop effect and [handleGenerateClick] compute
    it. *)
Definition targetAspectRatio (s : State) : option Q :=
  match String.eqb (aspectRatio s) "reference", attachedImageDimensions s with
  | true, Some d => Some (ratioOfDimensions d)
  | _, _ =>
      if negb (String.eqb (aspectRatio s) "original")
      then parseAspectRatio (aspectRatio s)
      else None
  end.

(** The target ratio as [handleCropMouseMove] computes it. *)
Definition targetRatio (s : State) : option Q :=
  match String.eqb (aspectRatio s) "reference", attachedImageDimensions s with
  | true, Some d => Some (ratioOfDimensions d)
  | _, _ => parseAspectRatio (aspectRatio s)
  end.

(** Truthiness of a [number | null]. *)
Definition truthy_ratio (o : option Q) : bool :=
  match o with Some r => truthy_num r | None => false end.

Definition currentImage (s : State) : option HistoryItem :=
  match activeHistoryIndex s with
  | Some i => List.nth_error (history s) i
  | None => None
  end.

(** *** The rendered image box *)

(** Width and height of the image as rendered in the container
    (contain-fit), computed the same way by the crop effect and by
    [handleGenerateClick]; crop rectangles are expressed in the coordinates
    of this box. *)
Definition renderedSize (originalRatio : Q) (containerWidth containerHeight : Q)
  : Q * Q :=
  if gtb originalRatio (containerWidth / containerHeight)
  then (containerWidth, containerWidth / originalRatio)
  else (containerHeight * originalRatio, containerHeight).

(** The effect that initialises cropping, run when [aspectRatio],
    [currentImage] or [attachedImageDimensions] change. *)
Definition cropEffect (env : Browser) (s : State) : State :=
  match targetAspectRatio s, currentImage s, containerRect env with
  | Some target, Some cur, Some (cw, ch) =>
      if truthy_num target then
        let originalRatio := ratioOfDimensions (dimensions cur) in
        let '(renderedWidth, renderedHeight) :=
          renderedSize originalRatio cw ch in
        let '(cropWidth, cropHeight) :=
          if gtb target (renderedWidth / renderedHeight)
          then (renderedWidth, renderedWidth / target)
          else (renderedHeight * target, renderedHeight) in
        setIsCropping true
          (setCrop (Some (Rect.mk ((renderedWidth - cropWidth) / 2)
                                  ((renderedHeight - cropHeight) / 2)
                                  cropWidth cropHeight)) s)
      else setIsCropping false (setCrop None s)
  | _, _, _ => setIsCropping false (setCrop None s)
  end.

(** *** Session handlers *)

Definition removeAttachedImage (s : State) : State :=
  let s := setAttachedImage None s in
  let s := setAttachedImageBase64 None s in
  let s := setAttachedImageMimeType None s in
  let s := setAttachedImageName None s in
  let s := setAttachedImageDimensions None s in
  if String.eqb (aspectRatio s) "reference"
  then setAspectRatio "original" s
  else s.

(** [resetState].  The [removeAttachedImage] it calls is the one of the
    first render; the aspect ratio is "original" after it whichever value
    that closure sees. *)
Definition resetState (s : State) : State :=
  let s := setHistory [] s in
  let s := setActiveHistoryIndex None s in
  let s := setError None s in
  let s := setCrop None s in
  let s := setIsCropping false s in
  let s := setPrompt "" s in
  let s := setAspectRatio "original" s in
  let s := setQuality "standard" s in
  removeAttachedImage s.

(** The 4MB limit of both file inputs. *)
Definition sizeLimit : Z := 4 * 1024 * 1024.

(** [handleFileChange]: the state once the handler and the [onload] of the
    decoded image have run.  When [fileToBase64] rejects or never settles
    the handler stops after the reset. *)
Definition handleFileChange (env : Browser) (file : option File) (s : State)
  : State :=
  match file with
  | None => s
  | Some file =>
      if (size file >? sizeLimit)%Z then
        setError (Some "O tamanho do arquivo não pode exceder 4MB.") s
      else
        let s := resetState s in
        let imageUrl := createObjectURL env (name file) in
        match fileToBase64 env (name file) with
        | Resolved b64 =>
            match loadImage env imageUrl with
            | Some d =>
                let newHistoryItem := mkHistoryItem imageUrl b64 (type file) d in
                let s := setHistory [newHistoryItem] s in
                let s := setActiveHistoryIndex (Some 0%nat) s in
                setError None s
            | None => s
            end
        | Rejected _ => s
        | Pending => s
        end
  end.

Definition handleHistorySelect (index : nat) (s : State) : State :=
  if isLoading s then s
  else
    let s := setActiveHistoryIndex (Some index) s in
    let s := setCrop None s in
    setIsCropping false s.

(** [handleAttachedFileChange], [file] being [event.target.files?.[0]]. *)
Definition handleAttachedFileChange (env : Browser) (file : option File)
    (s : State) : State :=
  match file with
  | None => s
  | Some file =>
      if (size file >? sizeLimit)%Z then
        setError (Some "O tamanho do arquivo anexado não pode exceder 4MB.") s
      else
        let s := setAttachedImageName (Some (name file)) s in
        let imageUrl := createObjectURL env (name file) in
        let s := setAttachedImage (Some imageUrl) s in
        let s :=
          match loadImage env imageUrl with
          | Some d => setAttachedImageDimensions (Some d) s
          | None => s
          end in
        match fileToBase64 env (name file) with
        | Resolved b64 =>
            let s := setAttachedImageBase64 (Some b64) s in
            setAttachedImageMimeType (Some (type file)) s
        | Rejected _ => s
        | Pending => s
        end
  end.

(** *** [handleGenerateClick] *)

(** The conversion of the display-space crop rectangle to native space:
    each axis is scaled by its own factor; nothing is rounded here. *)
Definition pixelCropOf (crop : Rect.t) (naturalWidth naturalHeight : Z)
    (renderedWidth renderedHeight : Q) : Rect.t :=
  let scaleX := inject_Z naturalWidth / renderedWidth in
  let scaleY := inject_Z naturalHeight / renderedHeight in
  Rect.mk (Rect.x crop * scaleX) (Rect.y crop * scaleY)
          (Rect.width crop * scaleX) (Rect.height crop * scaleY).

(** The first part of the [try] block: the image, MIME type and dimensions
    that are sent.  [imageEl] is a detached image, whose [width] and
    [height] are its natural ones; its [onerror] is not handled, so the
    block never settles when it fails to load. *)
Definition imageToSend (env : Browser) (s : State) (currentImage : HistoryItem)
  : promise (string * string * Dimensions) :=
  match isCropping s, crop s, truthy (url currentImage) with
  | true, Some crop, true =>
      match loadImage env (url currentImage) with
      | None => Pending
      | Some natural =>
          let '(renderedWidth, renderedHeight) :=
            match containerRect env with
            | Some (cw, ch) => renderedSize (ratioOfDimensions natural) cw ch
            | None => (inject_Z (width natural), inject_Z (height natural))
            end in
          let pixelCrop :=
            pixelCropOf crop (width natural) (height natural)
              renderedWidth renderedHeight in
          let! cropped := FileUtils.cropImage env (url currentImage) pixelCrop
          in
          match targetAspectRatio s with
          | Some target =>
              if truthy_num target then
                let! padded :=
                  FileUtils.padImage env (FileUtils.base64 cropped) target in
                Resolved (FileUtils.base64 padded, "image/png",
                          FileUtils.dimensions padded)
              else
                let! safeCropped :=
                  FileUtils.cropImage env (url currentImage) pixelCrop in
                Resolved (FileUtils.base64 safeCropped, "image/png",
                          FileUtils.dimensions safeCropped)
          | None =>
              let! safeCropped :=
                FileUtils.cropImage env (url currentImage) pixelCrop in
              Resolved (FileUtils.base64 safeCropped, "image/png",
                        FileUtils.dimensions safeCropped)
          end
      end
  | _, _, _ =>
      Resolved (base64 currentImage, mimeType currentImage,
                dimensions currentImage)
  end.

(** The [try] block up to the result of the remote call. *)
Definition editResult (env : Browser) (svc : GeminiService.Service)
    (s : State) (currentImage : HistoryItem) : promise string :=
  let! (image, mime, dims) := imageToSend env s currentImage in
  GeminiService.editImageWithPrompt svc image mime (prompt s)
    (attachedImageBase64 s) (attachedImageMimeType s) dims
    (aspectRatio s) (quality s) (attachedImageDimensions s).

(** [history.slice(0, activeHistoryIndex! + 1)]; [null + 1] is [1]. *)
Definition sliceToActive (history : list HistoryItem)
    (activeHistoryIndex : option nat) : list HistoryItem :=
  List.firstn (match activeHistoryIndex with Some i => S i | None => 1%nat end)
    history.

(** [err.message || '...']; a thrown value that is not an [Error] has no
    message. *)
Definition errorMessage (err : thrown) : string :=
  match err with
  | ErrorObj message => or_else message "Ocorreu um erro desconhecido."
  | OtherValue _ => "Ocorreu um erro desconhecido."
  end.

(** [handleGenerateClick]: the state once the handler, its [finally] block
    and the [onload] of the result image have run.  The history is only
    written by that [onload]. *)
Definition handleGenerateClick (env : Browser) (svc : GeminiService.Service)
    (s : State) : State :=
  match truthy (prompt s), currentImage s with
  | true, Some cur =>
      let s1 := setError None (setIsLoading true s) in
      match editResult env svc s cur with
      | Resolved resultBase64 =>
          let resultUrl := "data:image/png;base64," ++ resultBase64 in
          let s2 := setIsLoading false s1 in
          match loadImage env resultUrl with
          | Some d =>
              let newHistoryItem :=
                mkHistoryItem resultUrl resultBase64 "image/png" d in
              let newHistory :=
                sliceToActive (history s) (activeHistoryIndex s) in
              let s3 := setHistory (newHistory ++ [newHistoryItem])%list s2 in
              setActiveHistoryIndex (Some (List.length newHistory)) s3
          | None => s2
          end
      | Rejected err =>
          setIsLoading false (setError (Some (errorMessage err)) s1)
      | Pending => s1
      end
  | _, _ =>
      setError (Some "Por favor, carregue uma imagem e insira um comando.") s
  end.

(** The state [s'] differs from [s] in the error message at most. *)
Definition unchangedButError (s s' : State) : Prop :=
  history s' = history s
  /\ activeHistoryIndex s' = activeHistoryIndex s
  /\ prompt s' = prompt s
  /\ isLoading s' = isLoading s
  /\ aspectRatio s' = aspectRatio s
  /\ quality s' = quality s
  /\ attachedImage s' = attachedImage s
  /\ attachedImageBase64 s' = attachedImageBase64 s
  /\ attachedImageMimeType s' = attachedImageMimeType s
  /\ attachedImageName s' = attachedImageName s
  /\ attachedImageDimensions s' = attachedImageDimensions s
  /\ crop s' = crop s
  /\ isCropping s' = isCropping s
  /\ cropInteraction s' = cropInteraction s.

(** *** Crop handlers *)

Definition handleCropMouseDown (env : Browser) (clientX clientY : Q)
    (resizing : bool) (s : State) : State :=
  match crop s, containerRect env with
  | Some c, Some _ =>
      setCropInteraction
        (mkInteraction (negb resizing) resizing clientX clientY (Some c)) s
  | _, _ => s
  end.

Definition onMouseUp (s : State) : State :=
  let i := cropInteraction s in
  setCropInteraction
    (mkInteraction false false (startX i) (startY i) (startCrop i)) s.

(** The resize branch of [handleCropMouseMove]: the new width and height,
    or [None] where the handler returns because of the minimum size. *)
Definition resizedSize (startCrop : Rect.t) (dx targetRatio : Q)
    (containerWidth containerHeight : Q) : option (Q * Q) :=
  let newWidth := Rect.width startCrop + dx in
  let newHeight := newWidth / targetRatio in
  let '(newWidth, newHeight) :=
    if gtb (Rect.x startCrop + newWidth) containerWidth
    then (containerWidth - Rect.x startCrop,
          (containerWidth - Rect.x startCrop) / targetRatio)
    else (newWidth, newHeight) in
  let '(newWidth, newHeight) :=
    if gtb (Rect.y startCrop + newHeight) containerHeight
    then ((containerHeight - Rect.y startCrop) * targetRatio,
          containerHeight - Rect.y startCrop)
    else (newWidth, newHeight) in
  if ltb newWidth 20 || ltb newHeight 20 then None
  else Some (newWidth, newHeight).

(** The final clamp of [handleCropMouseMove]. *)
Definition clampToBoundaries (newCrop : Rect.t)
    (containerWidth containerHeight : Q) : Rect.t :=
  Rect.mk
    (Math_max 0 (Math_min (Rect.x newCrop)
                          (containerWidth - Rect.width newCrop)))
    (Math_max 0 (Math_min (Rect.y newCrop)
                          (containerHeight - Rect.height newCrop)))
    (Rect.width newCrop) (Rect.height newCrop).

(** The rectangle that [handleCropMouseMove] passes to [setCrop], or
    [None] where it returns without calling it.  [containerRect] is the
    bounding box of the container, taken by [handleCropMouseDown]. *)
Definition movedCrop (s : State) (clientX clientY : Q)
    (containerRect : Q * Q) : option Rect.t :=
  let i := cropInteraction s in
  let '(containerWidth, containerHeight) := containerRect in
  match startCrop i with
  | None => None
  | Some startCrop =>
      if negb (isDragging i) && negb (isResizing i) then None
      else
        let dx := clientX - startX i in
        let dy := clientY - startY i in
        let newCrop :=
          if isDragging i then
            Some (Rect.mk (Rect.x startCrop + dx) (Rect.y startCrop + dy)
                          (Rect.width startCrop) (Rect.height startCrop))
          else if isResizing i && truthy_ratio (targetRatio s) then
            match targetRatio s with
            | Some ratio =>
                match resizedSize startCrop dx ratio
                        containerWidth containerHeight with
                | Some (newWidth, newHeight) =>
                    Some (Rect.mk (Rect.x startCrop) (Rect.y startCrop)
                                  newWidth newHeight)
                | None => None
                end
            | None => Some startCrop
            end
          else Some startCrop in
        match newCrop with
        | Some newCrop =>
            Some (clampToBoundaries newCrop containerWidth containerHeight)
        | None => None
        end
  end.

Definition handleCropMouseMove (clientX clientY : Q) (containerRect : Q * Q)
    (s : State) : State :=
  match movedCrop s clientX clientY containerRect with
  | Some newCrop => setCrop (Some newCrop) s
  | None => s
  end.

End App.

(** ** Concrete environments *)

Module Examples.

Import JS.
Open Scope string_scope.

(** A browser whose container measures [cw] by [ch], in which every image
    decodes to the dimensions [d] and every canvas is available. *)
Definition browser (cw ch : Q) (d : Dimensions) : Browser :=
  {| loadImage := fun _ => Some d;
     getContext2d := true;
     cropPng := fun url _ _ _ _ => "crop:" ++ url;
     padPng := fun b64 _ _ _ _ => "pad:" ++ b64;
     containerRect := Some (cw, ch);
     fileToBase64 := fun name => Resolved ("b64:" ++ name);
     createObjectURL := fun name => "blob:" ++ name |}.

(** A service that answers every request with one candidate holding the
    image [data]. *)
Definition serviceReturning (data : string) : GeminiService.Service :=
  {| GeminiService.API_KEY := true;
     GeminiService.generateContent := fun _ =>
       Resolved [[GeminiService.InlineData data "image/png"]] |}.

(** A service whose call fails with the thrown value [e]. *)
Definition serviceThrowing (e : thrown) : GeminiService.Service :=
  {| GeminiService.API_KEY := true;
     GeminiService.generateContent := fun _ => Rejected e |}.

Definition item (label : string) : App.HistoryItem :=
  App.mkHistoryItem ("blob:" ++ label) label "image/png"
    (mkDimensions 100 100).

(** A session with the history [[A; B; C]] whose active entry is [B]. *)
Definition sessionABC : App.State :=
  App.setPrompt "adicione um chapéu"
    (App.setActiveHistoryIndex (Some 1%nat)
       (App.setHistory [item "A"; item "B"; item "C"]
          (App.initialState None None))).

(** A square image of 100 pixels uploaded in a container of 160 by 90,
    then the aspect ratio 1:1 selected: the rendered image and the initial
    crop rectangle both measure 90 by 90. *)
Definition squareUpload : App.State :=
  App.cropEffect (browser 160 90 (mkDimensions 100 100))
    (App.setAspectRatio "1:1"
       (App.handleFileChange (browser 160 90 (mkDimensions 100 100))
          (Some (App.mkFile "sala.png" 1000 "image/png"))
          (App.initialState None None))).

End Examples.

(** ** The specification's wording

    Definitions that follow the words of the specification, to be compared
    with the ones taken from the source. *)

Module Spec.

Import JS JSString.
Open Scope Q_scope.
Open Scope string_scope.

(** The sizing rule of [pad] as the specification words it: the new
    dimensions, then the offsets [round((newDimension - sourceDimension)/2)]
    taken from the new (rounded) dimensions. *)
Definition padLayout (w h : Z) (t : Q) : Z * Z * Z * Z :=
  let '(newWidth, newHeight) :=
    if gtb (inject_Z w / inject_Z h) t
    then (w, Math_round (inject_Z w / t))
    else (Math_round (inject_Z h * t), h) in
  (newWidth, newHeight,
   Math_round ((inject_Z newWidth - inject_Z w) / 2),
   Math_round ((inject_Z newHeight - inject_Z h) / 2)).


Definition editTask (outpainting : bool) (prompt : string) : string :=
  if outpainting then GeminiService.editTaskOutpainting prompt
  else GeminiService.editTaskStandard prompt.










End Spec.


(** * Properties *)

(** ** Numbers and rounding *)

Import JS.
Open Scope Q_scope.

Lemma gtb_true (a b : Q) : gtb a b = true <-> b < a.
Proof.
  unfold gtb. rewrite negb_true_iff, <- not_true_iff_false, Qle_bool_iff.
  split; [apply Qnot_le_lt | apply Qlt_not_le].
Qed.

Lemma gtb_false (a b : Q) : gtb a b = false <-> a <= b.
Proof.
  unfold gtb. rewrite negb_false_iff. apply Qle_bool_iff.
Qed.

Lemma ltb_true (a b : Q) : ltb a b = true <-> a < b.
Proof. unfold ltb. apply (gtb_true b a). Qed.

Lemma ltb_false (a b : Q) : ltb a b = false <-> b <= a.
Proof. unfold ltb. apply (gtb_false b a). Qed.




Lemma Math_round_eq (x y : Q) : x == y -> Math_round x = Math_round y.
Proof. intros H. unfold Math_round. now rewrite H. Qed.

#[global] Instance Math_round_proper :
  Morphisms.Proper (Qeq ==> eq) Math_round.
Proof. intros x y H. now apply Math_round_eq. Qed.


Lemma div_mul_cancel (a b : Q) : ~ b == 0 -> (a / b) * b == a.
Proof. intros H. field. exact H. Qed.

(** ** [padImage] *)







Lemma pos_inject (z : Z) : (0 < z)%Z -> 0 < inject_Z z.
Proof. intros H. change 0 with (inject_Z 0). now rewrite <- Zlt_Qlt. Qed.








(** ** [cropImage] after the conversion to native space *)




(** ** Dragging the crop rectangle *)

Lemma clamp_within (v hi : Q) :
  0 <= hi -> 0 <= Math_max 0 (Math_min v hi) <= hi.
Proof.
  intros H. unfold Math_max, Math_min. split.
  - apply Q.le_max_l.
  - apply Q.max_lub; [exact H | apply Q.le_min_r].
Qed.

(** What the final clamp guarantees: a rectangle that fits in the
    container is kept inside the container. *)
Lemma clampToBoundaries_in_container (r : Rect.t) (cw ch : Q) :
  Rect.width r <= cw -> Rect.height r <= ch ->
  let r' := App.clampToBoundaries r cw ch in
  0 <= Rect.x r' /\ Rect.x r' + Rect.width r' <= cw
  /\ 0 <= Rect.y r' /\ Rect.y r' + Rect.height r' <= ch.
Proof.
  intros Hw Hh. cbn.
  destruct (clamp_within (Rect.x r) (cw - Rect.width r)) as [H1 H2]; [lra|].
  destruct (clamp_within (Rect.y r) (ch - Rect.height r)) as [H3 H4]; [lra|].
  repeat split; lra.
Qed.

(** C5: the code at the failing input.  A square image of 100 pixels in a
    container of 160 by 90 is rendered at 90 by 90 and the initial 1:1 crop
    rectangle covers it.  Dragging the rectangle by 50 pixels to the right
    is clamped against the container width 160, not against the rendered
    width 90: the rectangle ends at 140, outside the rendered image, and
    the region then cropped from the source starts at column 56 and is 100
    columns wide in an image of 100 columns. *)
Theorem drag_leaves_rendered_image :
  let env := Examples.browser 160 90 (mkDimensions 100 100) in
  let rendered := App.renderedSize (100 / 100) 160 90 in
  let dragged :=
    App.handleCropMouseMove 60 10 (160, 90)
      (App.handleCropMouseDown env 10 10 false Examples.squareUpload) in
  fst rendered == 90 /\ snd rendered == 90
  /\ (exists r0, App.crop Examples.squareUpload = Some r0
        /\ Rect.x r0 == 0 /\ Rect.y r0 == 0
        /\ Rect.width r0 == 90 /\ Rect.height r0 == 90)
  /\ exists r, App.crop dragged = Some r
       /\ Rect.x r == 50 /\ Rect.width r == 90
       /\ fst rendered < Rect.x r + Rect.width r
       /\ FileUtils.roundCrop
            (App.pixelCropOf r 100 100 (fst rendered) (snd rendered))
          = (56, 0, 100, 100)%Z.
Proof.
  cbv zeta. split; [reflexivity|]. split; [reflexivity|]. split.
  - eexists. split; [vm_compute; reflexivity|]. repeat split.
  - eexists. split; [vm_compute; reflexivity|]. repeat split.
Qed.

(** ** Resizing the crop rectangle *)

Lemma minimum_check (a b nw nh : Q) :
  (if ltb a 20 || ltb b 20 then None else Some (a, b)) = Some (nw, nh) ->
  a = nw /\ b = nh /\ 20 <= a /\ 20 <= b.
Proof.
  destruct (ltb a 20) eqn:La; [discriminate|].
  destruct (ltb b 20) eqn:Lb; [discriminate|].
  apply ltb_false in La, Lb. cbn [orb]. intros [= <- <-]. auto.
Qed.

(** What an accepted resize guarantees about the new size. *)
Lemma resizedSize_accepted (start : Rect.t) (dx ratio cw ch nw nh : Q) :
  ~ ratio == 0 ->
  App.resizedSize start dx ratio cw ch = Some (nw, nh) ->
  20 <= nw /\ 20 <= nh
  /\ Rect.x start + nw <= cw /\ Rect.y start + nh <= ch.
Proof.
  intros Hr. unfold App.resizedSize.
  set (w0 := Rect.width start + dx).
  assert (E0 : (w0 / ratio) * ratio == w0) by (apply div_mul_cancel; exact Hr).
  assert (E1 : ((cw - Rect.x start) / ratio) * ratio == cw - Rect.x start)
    by (apply div_mul_cancel; exact Hr).
  destruct (gtb (Rect.x start + w0) cw) eqn:G1;
    [apply gtb_true in G1 | apply gtb_false in G1].
  - set (h1 := (cw - Rect.x start) / ratio) in *.
    destruct (gtb (Rect.y start + h1) ch) eqn:G2;
      [apply gtb_true in G2 | apply gtb_false in G2].
    + intros H. apply minimum_check in H. destruct H as (<- & <- & L1 & L2).
      repeat split; try lra. nra.
    + intros H. apply minimum_check in H. destruct H as (<- & <- & L1 & L2).
      repeat split; lra.
  - set (h1 := w0 / ratio) in *.
    destruct (gtb (Rect.y start + h1) ch) eqn:G2;
      [apply gtb_true in G2 | apply gtb_false in G2].
    + intros H. apply minimum_check in H. destruct H as (<- & <- & L1 & L2).
      repeat split; try lra. nra.
    + intros H. apply minimum_check in H. destruct H as (<- & <- & L1 & L2).
      repeat split; lra.
Qed.

Lemma truthy_num_nonzero (r : Q) : truthy_num r = true <-> ~ r == 0.
Proof.
  unfold truthy_num. rewrite negb_true_iff, <- not_true_iff_false.
  now rewrite Qeq_bool_iff.
Qed.

(** C6, as amended.  During a resize gesture with a non-zero target ratio,
    from a start rectangle whose origin is not negative and for every
    pointer position: when the resized width and height (after the clamps
    against the container) reach the minimum of 20, the rectangle set has
    that size, keeps the origin of the start rectangle, and its far edges
    are within the container; when the resized width or height is below
    20, no rectangle is set and the state is left as it was, so that the
    rectangle displayed before the event is kept. *)
Theorem resize_minimum_and_container (s : App.State)
    (clientX clientY cw ch ratio : Q) (start : Rect.t) :
  App.isDragging (App.cropInteraction s) = false ->
  App.isResizing (App.cropInteraction s) = true ->
  App.startCrop (App.cropInteraction s) = Some start ->
  App.targetRatio s = Some ratio ->
  ~ ratio == 0 ->
  0 <= Rect.x start -> 0 <= Rect.y start ->
  match App.resizedSize start (clientX - App.startX (App.cropInteraction s))
          ratio cw ch with
  | Some (nw, nh) =>
      exists r,
        App.handleCropMouseMove clientX clientY (cw, ch) s
        = App.setCrop (Some r) s
        /\ Rect.width r = nw /\ Rect.height r = nh
        /\ 20 <= Rect.width r /\ 20 <= Rect.height r
        /\ Rect.x r == Rect.x start /\ Rect.y r == Rect.y start
        /\ Rect.x r + Rect.width r <= cw
        /\ Rect.y r + Rect.height r <= ch
  | None =>
      App.handleCropMouseMove clientX clientY (cw, ch) s = s
  end.
Proof.
  intros Hdrag Hres Hstart Hratio Hnz Hx Hy.
  unfold App.handleCropMouseMove, App.movedCrop.
  rewrite Hstart, Hdrag, Hres, Hratio. cbn [negb andb App.truthy_ratio].
  rewrite (proj2 (truthy_num_nonzero ratio) Hnz).
  destruct (App.resizedSize start _ ratio cw ch) as [[nw nh]|] eqn:E;
    [|reflexivity].
  apply resizedSize_accepted in E; [|exact Hnz].
  destruct E as (Hw & Hh & Hfx & Hfy).
  eexists. split; [reflexivity|]. cbn [App.clampToBoundaries Rect.x Rect.y
    Rect.width Rect.height].
  assert (Ex : Math_max 0 (Math_min (Rect.x start) (cw - nw)) == Rect.x start).
  { unfold Math_max, Math_min.
    rewrite (Q.min_l (Rect.x start) (cw - nw)) by lra.
    apply Q.max_r. exact Hx. }
  assert (Ey : Math_max 0 (Math_min (Rect.y start) (ch - nh)) == Rect.y start).
  { unfold Math_max, Math_min.
    rewrite (Q.min_l (Rect.y start) (ch - nh)) by lra.
    apply Q.max_r. exact Hy. }
  repeat split; try assumption; rewrite ?Ex, ?Ey; assumption.
Qed.

Lemma resize_minimum_and_container_witness :
  let env := Examples.browser 160 90 (mkDimensions 100 100) in
  let s := App.handleCropMouseDown env 90 90 true Examples.squareUpload in
  (exists r, App.handleCropMouseMove 40 90 (160, 90) s
             = App.setCrop (Some r) s
             /\ Rect.width r == 40 /\ Rect.height r == 40)
  /\ App.handleCropMouseMove 10 90 (160, 90) s = s.
Proof.
  cbv zeta.
  set (s := App.handleCropMouseDown _ 90 90 true Examples.squareUpload).
  split.
  - pose proof (resize_minimum_and_container s 40 90 160 90 (1 / 1)
                  (Rect.mk (0 # 200) (0 # 2) 90 90)
                  eq_refl eq_refl eq_refl eq_refl) as H.
    destruct H as (r & E & Ew & Eh & _); [discriminate .. |].
    exists r. split; [exact E|]. rewrite Ew, Eh. split; reflexivity.
  - apply (resize_minimum_and_container s 10 90 160 90 (1 / 1)
             (Rect.mk (0 # 200) (0 # 2) 90 90)
             eq_refl eq_refl eq_refl eq_refl); discriminate.
Defined.

(** C6 fails as stated, on two counts.  First, a rejected resize keeps the
    rectangle on display, which is not the start rectangle once a move of
    the gesture was accepted: from the start rectangle of 90 by 90, a move
    to 40 by 40 is accepted, and the next move, to a width of 10, is
    rejected and leaves 40 by 40.  Second, a start rectangle whose origin
    is negative gives a far edge beyond the container: from the origin
    (-50, 0) and the size 100 by 50 in a container of 100 by 100, a growth
    by 40 yields the width 140 at the origin 0. *)
Lemma resize_claim_fails :
  let env := Examples.browser 160 90 (mkDimensions 100 100) in
  let s1 := App.handleCropMouseDown env 90 90 true Examples.squareUpload in
  let s2 := App.handleCropMouseMove 40 90 (160, 90) s1 in
  let s3 := App.handleCropMouseMove 10 90 (160, 90) s2 in
  let off :=
    App.setCropInteraction
      (App.mkInteraction false true 0 0 (Some (Rect.mk (-50) 0 100 50)))
      (App.setAspectRatio "2:1" (App.initialState None None)) in
  (App.movedCrop s2 10 90 (160, 90) = None
   /\ exists start kept,
        App.startCrop (App.cropInteraction s2) = Some start
        /\ App.crop s3 = Some kept
        /\ Rect.width start == 90 /\ Rect.width kept == 40
        /\ kept <> start)
  /\ exists r,
       App.movedCrop off 40 0 (100, 100) = Some r
       /\ Rect.x r == 0 /\ Rect.width r == 140
       /\ ~ Rect.x r + Rect.width r <= 100.
Proof.
  cbv zeta. split.
  - split; [reflexivity|]. do 2 eexists.
    split; [vm_compute; reflexivity|]. split; [vm_compute; reflexivity|].
    repeat split. discriminate.
  - eexists. split; [vm_compute; reflexivity|]. repeat split.
    vm_compute. intros H. apply H. reflexivity.
Qed.

(** ** Reachable crop rectangles *)

(** Every rectangle set by [handleCropMouseMove] has a non-negative
    origin. *)
Lemma movedCrop_origin (s : App.State) (clientX clientY : Q)
    (containerRect : Q * Q) (r : Rect.t) :
  App.movedCrop s clientX clientY containerRect = Some r ->
  0 <= Rect.x r /\ 0 <= Rect.y r.
Proof.
  unfold App.movedCrop. destruct containerRect as [cw ch].
  destruct (App.startCrop (App.cropInteraction s)) as [start|]; [|discriminate].
  destruct (negb _ && negb _); [discriminate|].
  match goal with
  | |- match ?c with _ => _ end = _ -> _ => destruct c as [newCrop|]
  end; [|discriminate].
  intros [= <-]. cbn. unfold Math_max. split; apply Q.le_max_l.
Qed.

(** A drag keeps the rectangle inside the container, provided it fits. *)
Lemma drag_stays_in_container (s : App.State) (clientX clientY cw ch : Q)
    (start r : Rect.t) :
  App.isDragging (App.cropInteraction s) = true ->
  App.startCrop (App.cropInteraction s) = Some start ->
  Rect.width start <= cw -> Rect.height start <= ch ->
  App.movedCrop s clientX clientY (cw, ch) = Some r ->
  Rect.width r = Rect.width start /\ Rect.height r = Rect.height start
  /\ 0 <= Rect.x r /\ Rect.x r + Rect.width r <= cw
  /\ 0 <= Rect.y r /\ Rect.y r + Rect.height r <= ch.
Proof.
  intros Hd Hs Hw Hh. unfold App.movedCrop. rewrite Hs, Hd. cbn [negb andb].
  intros [= <-].
  split; [reflexivity|]. split; [reflexivity|].
  apply clampToBoundaries_in_container; assumption.
Qed.

(** The rectangle set by the crop effect lies inside the rendered image
    box, for an image and a container of positive dimensions and a
    positive target ratio. *)
Lemma cropEffect_in_rendered (env : Browser) (s : App.State)
    (cur : App.HistoryItem) (target cw ch : Q) :
  App.targetAspectRatio s = Some target -> 0 < target ->
  App.currentImage s = Some cur ->
  (0 < width (App.dimensions cur))%Z -> (0 < height (App.dimensions cur))%Z ->
  containerRect env = Some (cw, ch) -> 0 < cw -> 0 < ch ->
  let rendered :=
    App.renderedSize (App.ratioOfDimensions (App.dimensions cur)) cw ch in
  exists r,
    App.crop (App.cropEffect env s) = Some r
    /\ 0 <= Rect.x r /\ Rect.x r + Rect.width r <= fst rendered
    /\ 0 <= Rect.y r /\ Rect.y r + Rect.height r <= snd rendered
    /\ fst rendered <= cw /\ snd rendered <= ch.
Proof.
  intros Ht Htpos Hcur Hw Hh Hc Hcw Hch rendered.
  assert (Htr : truthy_num target = true)
    by (apply truthy_num_nonzero; lra).
  unfold App.cropEffect. rewrite Ht, Hcur, Hc, Htr.
  subst rendered. unfold App.ratioOfDimensions.
  set (o := inject_Z (width (App.dimensions cur))
            / inject_Z (height (App.dimensions cur))).
  assert (Ho : 0 < o).
  { unfold o. apply Qlt_shift_div_l; [now apply pos_inject|].
    rewrite Qmult_0_l. now apply pos_inject. }
  assert (Hrend : exists rw rh,
    App.renderedSize o cw ch = (rw, rh)
    /\ 0 < rw /\ 0 < rh /\ rw <= cw /\ rh <= ch).
  { unfold App.renderedSize.
    assert (Ec : (cw / ch) * ch == cw) by (apply div_mul_cancel; lra).
    assert (Eo : (cw / o) * o == cw) by (apply div_mul_cancel; lra).
    destruct (gtb o (cw / ch)) eqn:G;
      [apply gtb_true in G | apply gtb_false in G].
    - exists cw, (cw / o). split; [reflexivity|].
      assert (0 < cw / o) by (apply Qlt_shift_div_l; lra).
      repeat split; try lra.
      apply Qle_shift_div_r; [lra|]. nra.
    - exists (ch * o), ch. split; [reflexivity|].
      assert (0 < ch * o) by (apply Qmult_lt_0_compat; lra).
      repeat split; try lra. nra. }
  destruct Hrend as (rw & rh & -> & Hrw & Hrh & Hrwc & Hrhc).
  cbn [fst snd].
  assert (Er : (rw / rh) * rh == rw) by (apply div_mul_cancel; lra).
  assert (Et : (rw / target) * target == rw) by (apply div_mul_cancel; lra).
  destruct (gtb target (rw / rh)) eqn:G;
    [apply gtb_true in G | apply gtb_false in G];
    eexists; (split; [reflexivity|]); cbn [Rect.x Rect.y Rect.width Rect.height].
  - set (hh := rw / target) in *.
    assert (hh <= rh) by nra.
    assert (E1 : (rw - rw) / 2 == 0) by field.
    assert (E2 : (rh - hh) / 2 == (rh - hh) * (1 # 2)) by field.
    rewrite E1, E2. repeat split; lra.
  - assert (rh * target <= rw) by nra.
    assert (E1 : (rh - rh) / 2 == 0) by field.
    assert (E2 : (rw - rh * target) / 2 == (rw - rh * target) * (1 # 2))
      by field.
    rewrite E1, E2. repeat split; lra.
Qed.

(** ** Strings *)

Import JSString.

Lemma prefix_iff (p s : string) :
  String.prefix p s = true <-> exists b, s = (p ++ b)%string.
Proof.
  revert s. induction p as [|c p IH]; intros s.
  - split; [intros _; now exists s | now destruct s].
  - destruct s as [|d s]; cbn.
    + split; [discriminate | intros [b Hb]; discriminate].
    + destruct (Ascii.ascii_dec c d) as [->|Hne].
      * rewrite IH. split; intros [b Hb]; exists b; congruence.
      * split; [discriminate | intros [b Hb]; congruence].
Qed.

(** [includes] decides the occurrence of a substring. *)
Lemma includes_iff (s pat : string) :
  includes s pat = true <-> exists a b, s = (a ++ pat ++ b)%string.
Proof.
  induction s as [|c s IH]; cbn [includes].
  - destruct (String.prefix pat "") eqn:P.
    + split; [intros _ | reflexivity].
      apply prefix_iff in P. destruct P as [b Hb]. now exists ""%string, b.
    + split; [discriminate|]. intros (a & b & E).
      destruct a; [|discriminate]. cbn in E.
      assert (String.prefix pat "" = true) by (apply prefix_iff; now exists b).
      congruence.
  - destruct (String.prefix pat (String c s)) eqn:P.
    + split; [intros _ | reflexivity].
      apply prefix_iff in P. destruct P as [b Hb]. now exists ""%string, b.
    + rewrite IH. split.
      * intros (a & b & E). exists (String c a), b. cbn. now rewrite E.
      * intros (a & b & E). destruct a as [|c' a]; cbn in E.
        -- assert (String.prefix pat (String c s) = true)
             by (apply prefix_iff; now exists b).
           congruence.
        -- injection E as _ E. now exists a, b.
Qed.

(** ** The remote edit call *)

(** C8.  For every failure raised in the [try] block of the remote edit
    call (by the call itself or by the missing image): when the failure is
    an error whose message contains "SAFETY" somewhere, the operation
    rejects with the dedicated safety error; in every other case it
    rejects with the failure itself, unchanged. *)
Theorem safety_failure_mapping (svc : GeminiService.Service)
    (base64ImageData mimeType prompt : string)
    (attachedImageBase64 attachedImageMimeType : option string)
    (dimensions : Dimensions) (aspectRatio quality : string)
    (attachedImageDimensions : option Dimensions) (failure : thrown) :
  GeminiService.API_KEY svc = true ->
  GeminiService.tryBlock svc
    (GeminiService.requestParts base64ImageData mimeType prompt
       attachedImageBase64 attachedImageMimeType dimensions aspectRatio
       quality)
  = Rejected failure ->
  let outcome :=
    GeminiService.editImageWithPrompt svc base64ImageData mimeType prompt
      attachedImageBase64 attachedImageMimeType dimensions aspectRatio
      quality attachedImageDimensions in
  ((exists message a b,
      failure = ErrorObj message /\ message = (a ++ "SAFETY" ++ b)%string) ->
   outcome = Rejected GeminiService.safetyError)
  /\ (~ (exists message a b,
           failure = ErrorObj message
           /\ message = (a ++ "SAFETY" ++ b)%string) ->
      outcome = Rejected failure).
Proof.
  intros Hkey Htry outcome. subst outcome.
  unfold GeminiService.editImageWithPrompt. rewrite Hkey, Htry. cbn [negb].
  unfold GeminiService.catchBlock. split.
  - intros (message & a & b & -> & Hm).
    assert (H : includes message "SAFETY" = true)
      by (apply includes_iff; now exists a, b).
    now rewrite H.
  - intros Hno. destruct failure as [message | other]; [|reflexivity].
    destruct (includes message "SAFETY") eqn:H; [|reflexivity].
    exfalso. apply Hno. apply includes_iff in H. destruct H as (a & b & E).
    now exists message, a, b.
Qed.

Lemma safety_failure_mapping_witness :
  GeminiService.editImageWithPrompt
    (Examples.serviceThrowing (ErrorObj "candidate blocked: SAFETY (image)"))
    "img" "image/png" "adicione um vaso" None None (mkDimensions 100 100)
    "original" "standard" None
  = Rejected GeminiService.safetyError
  /\ GeminiService.editImageWithPrompt
       (Examples.serviceThrowing (ErrorObj "503 Service Unavailable"))
       "img" "image/png" "adicione um vaso" None None (mkDimensions 100 100)
       "original" "standard" None
     = Rejected (ErrorObj "503 Service Unavailable").
Proof.
  split.
  - apply (safety_failure_mapping
             (Examples.serviceThrowing
                (ErrorObj "candidate blocked: SAFETY (image)"))
             "img" "image/png" "adicione um vaso" None None
             (mkDimensions 100 100) "original" "standard" None
             (ErrorObj "candidate blocked: SAFETY (image)")
             eq_refl eq_refl).
    exists "candidate blocked: SAFETY (image)"%string,
           "candidate blocked: "%string, " (image)"%string.
    split; reflexivity.
  - apply (safety_failure_mapping
             (Examples.serviceThrowing (ErrorObj "503 Service Unavailable"))
             "img" "image/png" "adicione um vaso" None None
             (mkDimensions 100 100) "original" "standard" None
             (ErrorObj "503 Service Unavailable") eq_refl eq_refl).
    intros (message & a & b & [= <-] & E).
    assert (H : includes "503 Service Unavailable" "SAFETY" = true)
      by (apply includes_iff; now exists a, b).
    vm_compute in H. discriminate.
Defined.

(** ** The prompt compiler *)





(** ** The history store *)

(** C1.  When an edit generated from the active entry [i] succeeds (the
    remote call resolves with an image that decodes), the entries after
    [i] are dropped, the new entry is appended, and it becomes the active
    one: the history is the first [i + 1] entries followed by the new
    entry, and the active index is [i + 1]. *)
Theorem generate_branches_history (env : Browser)
    (svc : GeminiService.Service) (s : App.State) (i : nat)
    (cur : App.HistoryItem) (resultBase64 : string) (d : Dimensions) :
  App.activeHistoryIndex s = Some i ->
  List.nth_error (App.history s) i = Some cur ->
  truthy (App.prompt s) = true ->
  App.editResult env svc s cur = Resolved resultBase64 ->
  loadImage env ("data:image/png;base64," ++ resultBase64) = Some d ->
  let s' := App.handleGenerateClick env svc s in
  let newItem :=
    App.mkHistoryItem ("data:image/png;base64," ++ resultBase64)
      resultBase64 "image/png" d in
  App.history s' = (List.firstn (S i) (App.history s) ++ [newItem])%list
  /\ App.activeHistoryIndex s' = Some (S i)
  /\ App.currentImage s' = Some newItem
  /\ List.length (App.history s') = (i + 2)%nat
  /\ (forall j, (j <= i)%nat ->
      List.nth_error (App.history s') j = List.nth_error (App.history s) j).
Proof.
  intros Hactive Hnth Hprompt Hedit Hload s' newItem.
  assert (Hi : (i < List.length (App.history s))%nat)
    by (apply List.nth_error_Some; congruence).
  assert (Hlen : List.length (List.firstn (S i) (App.history s)) = S i)
    by (rewrite List.length_firstn; lia).
  assert (Hs' : s' =
    App.setActiveHistoryIndex (Some (S i))
      (App.setHistory (List.firstn (S i) (App.history s) ++ [newItem])%list
         (App.setIsLoading false (App.setError None (App.setIsLoading true s))))).
  { subst s'. unfold App.handleGenerateClick, App.currentImage.
    rewrite Hprompt, Hactive, Hnth, Hedit, Hload.
    unfold App.sliceToActive. rewrite Hlen. reflexivity. }
  rewrite Hs'.
  unfold App.currentImage, App.setActiveHistoryIndex, App.setHistory.
  cbn [App.history App.activeHistoryIndex].
  repeat split.
  - rewrite List.nth_error_app2, Hlen, Nat.sub_diag by lia. reflexivity.
  - rewrite List.length_app, Hlen. cbn. lia.
  - intros j Hj. rewrite List.nth_error_app1 by lia.
    rewrite List.nth_error_firstn.
    destruct (Nat.ltb_spec j (S i)); [reflexivity | lia].
Qed.

Lemma generate_branches_history_witness :
  let s' :=
    App.handleGenerateClick (Examples.browser 160 90 (mkDimensions 100 100))
      (Examples.serviceReturning "D") Examples.sessionABC in
  App.history Examples.sessionABC
  = [Examples.item "A"; Examples.item "B"; Examples.item "C"]
  /\ App.activeHistoryIndex Examples.sessionABC = Some 1%nat
  /\ App.history s'
     = [Examples.item "A"; Examples.item "B";
        App.mkHistoryItem "data:image/png;base64,D" "D" "image/png"
          (mkDimensions 100 100)]
  /\ App.activeHistoryIndex s' = Some 2%nat.
Proof.
  cbv zeta. split; [reflexivity|]. split; [reflexivity|].
  destruct (generate_branches_history
              (Examples.browser 160 90 (mkDimensions 100 100))
              (Examples.serviceReturning "D") Examples.sessionABC 1
              (Examples.item "B") "D" (mkDimensions 100 100)
              eq_refl eq_refl eq_refl eq_refl eq_refl) as (H1 & H2 & _).
  split; [exact H1 | exact H2].
Defined.

(** C9.  An edit attempt that fails leaves the history list and the active
    index as they were: when validation fails (no command or no current
    image), when the [try] block rejects (the image does not decode for
    the crop or the pad, the canvas is missing, the API key is missing,
    the call is blocked for safety, no image is returned, the transport
    fails), and also when the attempt never settles or its result does not
    decode. *)
Theorem failed_attempt_keeps_history (env : Browser)
    (svc : GeminiService.Service) (s : App.State) :
  (truthy (App.prompt s) = false
   \/ App.currentImage s = None
   \/ (exists cur failure,
         App.currentImage s = Some cur
         /\ App.editResult env svc s cur = Rejected failure)
   \/ (exists cur,
         App.currentImage s = Some cur
         /\ App.editResult env svc s cur = Pending)
   \/ (exists cur resultBase64,
         App.currentImage s = Some cur
         /\ App.editResult env svc s cur = Resolved resultBase64
         /\ loadImage env ("data:image/png;base64," ++ resultBase64) = None)) ->
  App.history (App.handleGenerateClick env svc s) = App.history s
  /\ App.activeHistoryIndex (App.handleGenerateClick env svc s)
     = App.activeHistoryIndex s.
Proof.
  unfold App.handleGenerateClick.
  intros [H | [H | [(cur & e & Hc & He) | [(cur & Hc & He)
         | (cur & r & Hc & He & Hl)]]]].
  - rewrite H. split; reflexivity.
  - rewrite H. destruct (truthy (App.prompt s)); split; reflexivity.
  - rewrite Hc, He. destruct (truthy (App.prompt s)); split; reflexivity.
  - rewrite Hc, He. destruct (truthy (App.prompt s)); split; reflexivity.
  - rewrite Hc, He, Hl. destruct (truthy (App.prompt s)); split; reflexivity.
Qed.

Lemma failed_attempt_keeps_history_witness :
  let env := Examples.browser 160 90 (mkDimensions 100 100) in
  let svc := Examples.serviceThrowing (ErrorObj "blocked: SAFETY") in
  let s' := App.handleGenerateClick env svc Examples.sessionABC in
  App.history s' = [Examples.item "A"; Examples.item "B"; Examples.item "C"]
  /\ App.activeHistoryIndex s' = Some 1%nat
  /\ App.error s' = Some ("A solicitação foi bloqueada por configurações de segurança. Por favor, modifique seu comando ou imagem.")%string.
Proof.
  cbv zeta.
  destruct (failed_attempt_keeps_history
              (Examples.browser 160 90 (mkDimensions 100 100))
              (Examples.serviceThrowing (ErrorObj "blocked: SAFETY"))
              Examples.sessionABC) as [H1 H2].
  - right. right. left.
    exists (Examples.item "B"), GeminiService.safetyError.
    split; reflexivity.
  - rewrite H1, H2. repeat split.
Defined.

(** The kinds of failure of the [try] block all reject: a missing canvas
    context during the crop, a padded source that does not decode, and a
    rejection of the remote edit. *)
Lemma crop_failure_rejects (env : Browser) (svc : GeminiService.Service)
    (s : App.State) (cur : App.HistoryItem) (c : Rect.t) (d : Dimensions) :
  App.isCropping s = true -> App.crop s = Some c ->
  truthy (App.url cur) = true ->
  loadImage env (App.url cur) = Some d ->
  getContext2d env = false ->
  App.editResult env svc s cur
  = Rejected (ErrorObj "Não foi possível obter o contexto do canvas.").
Proof.
  intros H1 H2 H3 H4 H5. unfold App.editResult, App.imageToSend.
  rewrite H1, H2, H3, H4. unfold FileUtils.cropImage. rewrite H4, H5.
  destruct (containerRect env) as [[cw ch]|];
    [destruct (App.renderedSize _ cw ch)|]; reflexivity.
Qed.

Lemma remote_failure_rejects (env : Browser) (svc : GeminiService.Service)
    (s : App.State) (cur : App.HistoryItem) (failure : thrown) :
  App.isCropping s = false ->
  GeminiService.editImageWithPrompt svc (App.base64 cur) (App.mimeType cur)
    (App.prompt s) (App.attachedImageBase64 s) (App.attachedImageMimeType s)
    (App.dimensions cur) (App.aspectRatio s) (App.quality s)
    (App.attachedImageDimensions s)
  = Rejected failure ->
  App.editResult env svc s cur = Rejected failure.
Proof.
  intros H1 H2. unfold App.editResult, App.imageToSend. rewrite H1. exact H2.
Qed.

(** ** The size limit of the file inputs *)

(** C10.  A primary or reference file larger than 4 MiB only sets the
    error message: the result of either handler is the state with the
    error set, so the history, the active index, the command, the aspect
    ratio, the quality, the crop rectangle and the attached image are as
    before, and no session reset takes place. *)
Theorem oversized_file_only_sets_error (env : Browser) (file : App.File)
    (s : App.State) :
  (App.size file > 4 * 1024 * 1024)%Z ->
  (App.handleFileChange env (Some file) s
   = App.setError (Some "O tamanho do arquivo não pode exceder 4MB."%string) s
   /\ App.unchangedButError s (App.handleFileChange env (Some file) s))
  /\ (App.handleAttachedFileChange env (Some file) s
      = App.setError
          (Some "O tamanho do arquivo anexado não pode exceder 4MB."%string) s
      /\ App.unchangedButError s
           (App.handleAttachedFileChange env (Some file) s)).
Proof.
  intros H.
  assert (Hb : (App.size file >? App.sizeLimit)%Z = true)
    by (apply Z.gtb_lt; unfold App.sizeLimit; lia).
  unfold App.handleFileChange, App.handleAttachedFileChange. rewrite Hb.
  unfold App.unchangedButError. cbn. repeat split.
Qed.

Lemma oversized_file_only_sets_error_witness :
  let env := Examples.browser 160 90 (mkDimensions 100 100) in
  let big := App.mkFile "grande.png" 5000000 "image/png" in
  App.history (App.handleFileChange env (Some big) Examples.sessionABC)
  = [Examples.item "A"; Examples.item "B"; Examples.item "C"]
  /\ App.prompt (App.handleFileChange env (Some big) Examples.sessionABC)
     = "adicione um chapéu"%string
  /\ App.history
       (App.handleAttachedFileChange env (Some big) Examples.sessionABC)
     = [Examples.item "A"; Examples.item "B"; Examples.item "C"].
Proof.
  cbv zeta.
  destruct (oversized_file_only_sets_error
              (Examples.browser 160 90 (mkDimensions 100 100))
              (App.mkFile "grande.png" 5000000 "image/png")
              Examples.sessionABC) as [[H1 _] [H2 _]]; [reflexivity|].
  rewrite H1, H2. repeat split.
Defined.

(** By contrast, a file within the limit that decodes resets the session:
    the history holds the new image only, and the command, the aspect
    ratio, the quality and the attached image are the initial ones. *)
Lemma valid_upload_resets (env : Browser) (file : App.File) (s : App.State)
    (b64 : string) (d : Dimensions) :
  (App.size file <= 4 * 1024 * 1024)%Z ->
  fileToBase64 env (App.name file) = Resolved b64 ->
  loadImage env (createObjectURL env (App.name file)) = Some d ->
  let s' := App.handleFileChange env (Some file) s in
  App.history s'
  = [App.mkHistoryItem (createObjectURL env (App.name file)) b64
       (App.type file) d]
  /\ App.activeHistoryIndex s' = Some 0%nat
  /\ App.prompt s' = ""%string
  /\ App.aspectRatio s' = "original"%string
  /\ App.quality s' = "standard"%string
  /\ App.attachedImageBase64 s' = None
  /\ App.crop s' = None.
Proof.
  intros H Hb Hl.
  assert (Hs : (App.size file >? App.sizeLimit)%Z = false).
  { rewrite Z.gtb_ltb. apply Z.ltb_ge. unfold App.sizeLimit. lia. }
  unfold App.handleFileChange. rewrite Hs, Hb, Hl.
  cbn. repeat split.
Qed.
